(** * SentimentAnalysisApp: the backend gateway (src/backend/backend.js)

    A shallow embedding of the request/response logic of the Express
    backend: the two route handlers, the tweet-lookup parser
    ([sendRequestToTwitter], [extractId], [extractText], [tweetIdIsValid]),
    the classifier [responseForFrontendIsError] and the sentiment client
    [analyzeSentiment].

    JavaScript values are an inductive type: the values [JSON.parse]
    produces, [undefined] and error objects.  Objects are finite maps from
    property names to values, arrays are lists, numbers are binary64
    floats, and a string is a sequence of characters, each standing for
    one code unit; no value is callable.  A computation that may throw (or
    an awaited promise that may reject) is a [completion];
    [try { } catch (e) { }] is [try_catch].  The external services (axios
    [instance.get], the Google language client) are oracles passed to the
    handlers.  [console.log] and [console.error] write to the process log
    only and are left out. *)

From Stdlib Require Import Floats.PrimFloat.
From Stdlib Require DecimalString.
From stdpp Require Import gmap strings list pretty.

Set Warnings "-register-all,-inexact-float".

(** ** Values *)

Inductive value : Type :=
| VUndefined
| VNull
| VBool (b : bool)
| VNum (f : float)
| VStr (s : string)
| VObj (fields : gmap string value)
| VArr (elems : list value)
| VError (name message : string).

(** A completion: the computation returned a value, or it threw [e]
    (for an awaited promise: it resolved, or it rejected with [e]). *)
Inductive completion (A : Type) : Type :=
| Normal (a : A)
| Throw (e : value).
Arguments Normal {A} a.
Arguments Throw {A} e.

#[global] Instance completion_ret : MRet completion := λ A a, Normal a.

#[global] Instance completion_bind : MBind completion :=
  λ A B k c, match c with Normal a => k a | Throw e => Throw e end.

(** [try { body } catch (e) { handler(e) }] *)
Definition try_catch {A : Type} (body : completion A)
    (handler : value → completion A) : completion A :=
  match body with
  | Normal a => Normal a
  | Throw e => handler e
  end.

(** ** Primitive operations of the language *)

Definition nullish (v : value) : bool :=
  match v with
  | VUndefined | VNull => true
  | _ => false
  end.

(** ToBoolean: [undefined], [null], [false], [0], [-0], [NaN] and the
    empty string are falsy; every object (an empty array too) is truthy. *)
Definition truthy (v : value) : bool :=
  match v with
  | VUndefined | VNull => false
  | VBool b => b
  | VNum f => negb (PrimFloat.is_zero f || PrimFloat.is_nan f)
  | VStr s => negb (String.eqb s "")
  | VObj _ | VArr _ | VError _ _ => true
  end.

(** The [typeof] operator. *)
Definition typeof (v : value) : string :=
  match v with
  | VUndefined => "undefined"
  | VNull => "object"
  | VBool _ => "boolean"
  | VNum _ => "number"
  | VStr _ => "string"
  | VObj _ | VArr _ | VError _ _ => "object"
  end.

(** [v !== null] *)
Definition strict_not_null (v : value) : bool :=
  match v with
  | VNull => false
  | _ => true
  end.

(** A property key that is a canonical array index ("0", "7", "12", but
    not "00" or "+1") denotes that element of an array or a string. *)
Definition array_index (k : string) : option nat :=
  match DecimalString.NilZero.uint_of_string k with
  | Some u =>
      let n := Nat.of_uint u in
      if String.eqb (pretty n) k then Some n else None
  | None => None
  end.

(** The character at index [n] of a string, as a string of length one. *)
Definition char_at (s : string) (n : nat) : value :=
  match String.get n s with
  | Some c => VStr (String c EmptyString)
  | None => VUndefined
  end.

(** The value of property [k] of a value that is neither [undefined] nor
    [null].  Own properties only: the names the backend reads ([data],
    [errors], [id], [text], [value], [title], [detail], [message],
    [documentSentiment], [score], [magnitude], [doc] and index 0) are
    defined on no built-in prototype, so a missing one is [undefined].
    The only [length] the backend takes is that of the route parameter,
    which is a string: see [analyze_id]. *)
Definition own_property (v : value) (k : string) : value :=
  match v with
  | VObj fields => default VUndefined (fields !! k)
  | VArr elems =>
      match array_index k with
      | Some n => default VUndefined (elems !! n)
      | None => VUndefined
      end
  | VStr s =>
      match array_index k with
      | Some n => char_at s n
      | None => VUndefined
      end
  | VError name message =>
      if String.eqb k "message" then VStr message
      else if String.eqb k "name" then VStr name
      else VUndefined
  | _ => VUndefined
  end.

Definition show_nullish (v : value) : string :=
  match v with
  | VNull => "null"
  | _ => "undefined"
  end.

(** The message of the TypeError raised by reading a property of
    [undefined] or [null] (wording of V8, the engine of Node.js). *)
Definition cannot_read (v : value) (k : string) : string :=
  "Cannot read properties of " +:+ show_nullish v +:+
  " (reading '" +:+ k +:+ "')".

Definition TypeError (message : string) : value := VError "TypeError" message.

(** Property read [v.k] / [v[k]]: throws on [undefined] and [null]. *)
Definition get (v : value) (k : string) : completion value :=
  if nullish v then Throw (TypeError (cannot_read v k))
  else Normal (own_property v k).

(** Whether ToString, the conversion a template literal applies, returns.
    It throws on an object that has a [toString] property of its own: no
    value here is callable, so that property hides
    [Object.prototype.toString] and the conversion finds no method that
    returns a primitive.  An array is joined, which converts each of its
    elements ([null] and [undefined] give the empty string). *)
Fixpoint converts_to_string (v : value) : bool :=
  match v with
  | VObj fields =>
      match fields !! "toString" with
      | Some _ => false
      | None => true
      end
  | VArr elems => forallb converts_to_string elems
  | _ => true
  end.

(** A template literal with the one hole [v], written to the log: only
    whether the conversion throws is observable. *)
Definition template_literal (v : value) : completion unit :=
  if converts_to_string v then Normal ()
  else Throw (TypeError "Cannot convert object to primitive value").

(** [throws_only P c]: whatever [c] throws satisfies [P]. *)
Definition throws_only {A : Type} (P : value → Prop) (c : completion A) : Prop :=
  ∀ e, c = Throw e → P e.

Definition is_TypeError (e : value) : Prop := ∃ message, e = TypeError message.

(** ** The tweet-lookup parser *)

(** [tweet_response.data ? true : false] *)
Definition tweetIdIsValid (tweet_response : value) : completion bool :=
  data ← get tweet_response "data";
  mret (truthy data).

Definition extractId (tweet_response : value) : completion value :=
  valid ← tweetIdIsValid tweet_response;
  if (valid : bool) then
    data ← get tweet_response "data";
    first ← get data "0";
    get first "id"
  else
    errors ← get tweet_response "errors";
    first ← get errors "0";
    get first "value".

Definition extractText (tweet_response : value) : completion value :=
  valid ← tweetIdIsValid tweet_response;
  if (valid : bool) then
    data ← get tweet_response "data";
    first ← get data "0";
    get first "text"
  else
    errors ← get tweet_response "errors";
    first ← get errors "0";
    title ← get first "title";
    errors' ← get tweet_response "errors";
    first' ← get errors' "0";
    detail ← get first' "detail";
    mret (VObj {[ "message" := title; "error" := detail ]}).

(** The body of the [try] block of [sendRequestToTwitter].  Awaiting a
    value that is no promise yields the value itself. *)
Definition extract_fields (twitter_response : value) : completion value :=
  twitter_json_data ← get twitter_response "data";
  tweet_text ← extractText twitter_json_data;
  tweet_id ← extractId twitter_json_data;
  mret (VObj {[ "text" := tweet_text; "id" := tweet_id ]}).

(** The [catch (error)] block of [sendRequestToTwitter]. *)
Definition report_error (error : value) : completion value :=
  message ← get error "message";
  mret (VObj {[ "error" := message; "full_stack" := error ]}).

(** The promise an [async] function returns resolves with the returned
    value and rejects with an uncaught exception. *)
Definition sendRequestToTwitter (twitter_response : value) : completion value :=
  try_catch (extract_fields twitter_response) report_error.

Definition twitter_base_url : string := "https://api.twitter.com/2".

Definition buildURL (tweet_id : string) : string :=
  let endpoint_and_param := "/tweets?ids=" +:+ tweet_id in
  twitter_base_url +:+ endpoint_and_param.

(** [typeof r.text === "object" && r.text !== null]; [&&] reads [r.text]
    a second time only when the first test holds. *)
Definition responseForFrontendIsError (responseForFrontend : value)
    : completion bool :=
  text ← get responseForFrontend "text";
  if String.eqb (typeof text) "object" then
    text' ← get responseForFrontend "text";
    mret (strict_not_null text')
  else mret false.

(** ** HTTP responses *)

Module StatusCodes.
(** Modelled from the spec: the constants [OK] and [BAD_REQUEST] of the
    http-status-codes package, which is not part of the sources; the spec
    gives the two statuses of the identifier endpoint as 200 and 400. *)
Definition OK : nat := 200.
Definition BAD_REQUEST : nat := 400.
End StatusCodes.

(** What Express writes: [res.json(v)] serialises [v]; [res.send(s)] with
    a string sends it as text. *)
Inductive body : Type :=
| Json (v : value)
| Text (s : string).

Record http_response : Type := Response { status : nat; content : body }.

(** [res.send(v)]: a string is sent as text; the handler below reaches
    it with objects, which are sent as JSON. *)
Definition res_send (v : value) : body :=
  match v with
  | VStr s => Text s
  | _ => Json v
  end.

(** The observable result of one request: the upstream URLs requested, in
    order, and the response written, if any. *)
Record outcome : Type := Outcome {
  upstream_calls : list string;
  sent : option http_response
}.

(** ** POST /analyze/:id *)

Definition invalid_id_body : value :=
  VObj {[ "error" := VStr "Invalid ID.";
          "message" := VStr "ID must be a 19-character long Tweet ID." ]}.

(** The callback of [responseForFrontend.then]: it picks the status and
    sends the data unchanged.  An exception in a [then] callback rejects
    the derived promise, which nobody handles: nothing is sent. *)
Definition respond (data : value) : option http_response :=
  match responseForFrontendIsError data with
  | Normal true => Some (Response StatusCodes.BAD_REQUEST (Json data))
  | Normal false => Some (Response StatusCodes.OK (Json data))
  | Throw _ => None
  end.

(** [instance_get url] is the outcome of the promise [instance.get(url)]:
    axios resolves it with its response object or rejects it.  The chain
    of [then] has no [catch], so a rejection sends nothing. *)
Definition analyze_id (instance_get : string → completion value)
    (id : string) : outcome :=
  let id_length := String.length id in
  if negb (id_length =? 19) then
    Outcome [] (Some (Response StatusCodes.BAD_REQUEST (Json invalid_id_body)))
  else
    let tweet_id := id in
    let twitter_formatted_url := buildURL tweet_id in
    match instance_get twitter_formatted_url with
    | Normal res =>
        match sendRequestToTwitter res with
        | Normal data => Outcome [twitter_formatted_url] (respond data)
        | Throw _ => Outcome [twitter_formatted_url] None
        end
    | Throw _ => Outcome [twitter_formatted_url] None
    end.

(** ** The sentiment client *)

(** [const { k } = v]: throws on [undefined] and [null]. *)
Definition destructure (source : string) (v : value) (k : string)
    : completion value :=
  if nullish v then
    Throw (TypeError ("Cannot destructure property '" +:+ k +:+ "' of '" +:+
                      source +:+ "' as it is " +:+ show_nullish v +:+ "."))
  else Normal (own_property v k).

(** [const [x] = v]: the first element an iterable yields, [undefined]
    when it yields none.  Arrays and strings are the iterable values. *)
Definition destructure_first (v : value) : completion value :=
  match v with
  | VArr elems => Normal (default VUndefined (elems !! 0))
  | VStr s => Normal (char_at s 0)
  | _ => Throw (TypeError "(intermediate value) is not iterable")
  end.

(** The @google-cloud/language package as the backend uses it:
    [new language.LanguageServiceClient()] returns or throws, and the
    promise of [client.analyzeSentiment(request)] resolves or rejects. *)
Record language_service : Type := LanguageService {
  LanguageServiceClient : completion unit;
  client_analyzeSentiment : value → completion value
}.

(** The argument of [client.analyzeSentiment]. *)
Definition sentiment_request (doc : value) : value :=
  let text := doc in
  let document := VObj {[ "content" := text; "type" := VStr "PLAIN_TEXT" ]} in
  VObj {[ "document" := document ]}.

(** The body of the [try] block of [analyzeSentiment].  The three lines
    logged are template literals over [text], [sentiment.score] and
    [sentiment.magnitude]; a function that ends without [return] returns
    [undefined]. *)
Definition request_sentiment (language : language_service) (doc : value)
    : completion value :=
  _ ← LanguageServiceClient language;
  let text := doc in
  reply ← client_analyzeSentiment language (sentiment_request doc);
  result ← destructure_first reply;
  sentiment ← get result "documentSentiment";
  _ ← template_literal text;
  score ← get sentiment "score";
  _ ← template_literal score;
  magnitude ← get sentiment "magnitude";
  _ ← template_literal magnitude;
  if truthy result then mret result else mret VUndefined.

Definition analyzeSentiment (language : language_service) (doc : value)
    : completion value :=
  try_catch (request_sentiment language doc) (λ err, mret VUndefined).

(** ** POST /google/analyze *)

(** The body of the [try] block of the handler; its result is the
    response written, if any.  [res.send] without [res.status] answers
    200. *)
Definition send_sentiment (language : language_service) (doc : value)
    : completion (option http_response) :=
  response ← analyzeSentiment language doc;
  if truthy response
  then mret (Some (Response 200 (res_send response)))
  else mret None.

(** The [catch (err)] block of the handler. *)
Definition send_unauthorized (err : value) : completion (option http_response) :=
  mret (Some (Response 401 (Text "error"))).

(** [req_body] is [req.body].  The destructuring stands before the [try]:
    if it throws, the promise of the [async] handler rejects and Express
    writes nothing. *)
Definition google_analyze (language : language_service) (req_body : value)
    : option http_response :=
  match destructure "req.body" req_body "doc" with
  | Throw _ => None
  | Normal doc =>
      match try_catch (send_sentiment language doc) send_unauthorized with
      | Normal written => written
      | Throw _ => None
      end
  end.

(** An upstream fault of the sentiment call: the client cannot be built,
    or the call is rejected. *)
Definition upstream_fault (language : language_service) (doc : value) : Prop :=
  (∃ e, LanguageServiceClient language = Throw e) ∨
  (∃ e, client_analyzeSentiment language (sentiment_request doc) = Throw e).

(** ** The payload as a shared object *)

(** The callback of [responseForFrontend.then] hands one object, [data],
    first to [responseForFrontendIsError] and then to [response.json]:
    both receive a reference to it.  A [store] holds the plain objects
    that references point to, each with its properties, and a [stateful]
    computation runs on a store, returns or throws, and leaves a store. *)
Definition loc : Type := positive.

Definition store : Type := gmap loc (gmap string value).

Definition stateful (A : Type) : Type := store → completion A * store.

#[global] Instance stateful_ret : MRet stateful := λ A a σ, (Normal a, σ).

#[global] Instance stateful_bind : MBind stateful :=
  λ A B k m σ,
    match m σ with
    | (Normal a, σ') => k a σ'
    | (Throw e, σ') => (Throw e, σ')
    end.

(** What a variable that holds the reference [p] denotes; a reference to
    nothing stands for a variable that holds [undefined]. *)
Definition deref (σ : store) (p : loc) : value :=
  match σ !! p with
  | Some fields => VObj fields
  | None => VUndefined
  end.

(** The read [p.k]: it leaves the store as it is. *)
Definition load (p : loc) (k : string) : stateful value :=
  λ σ, (get (deref σ p) k, σ).

(** The assignment [p.k = v]: every holder of [p] sees it.  No function
    of the backend assigns to a property. *)
Definition assign (p : loc) (k : string) (v : value) : stateful unit :=
  λ σ,
    match σ !! p with
    | Some fields => (Normal (), <[p := <[k := v]> fields]> σ)
    | None => (Throw (TypeError ("Cannot set properties of undefined (setting '"
                                 +:+ k +:+ "')")), σ)
    end.

(** [responseForFrontendIsError] on a reference to the payload. *)
Definition responseForFrontendIsError_at (responseForFrontend : loc)
    : stateful bool :=
  text ← load responseForFrontend "text";
  if String.eqb (typeof text) "object" then
    text' ← load responseForFrontend "text";
    mret (strict_not_null text')
  else mret false.

(** [response.status(code).json(data)]: the object [data] points to when
    the call is made is what gets written. *)
Definition res_json_at (code : nat) (data : loc)
    : stateful (option http_response) :=
  λ σ, (Normal (Some (Response code (Json (deref σ data)))), σ).

(** The callback of [responseForFrontend.then] on a reference to [data]. *)
Definition respond_at (data : loc) : stateful (option http_response) :=
  isError ← responseForFrontendIsError_at data;
  if (isError : bool) then res_json_at StatusCodes.BAD_REQUEST data
  else res_json_at StatusCodes.OK data.

(** ** The contracts the specification names *)

(** The specification's "structured object rather than a primitive string
    (and not a null-equivalent absence)": objects, arrays and error
    objects, as opposed to strings, numbers, booleans, [null] and
    [undefined]. *)
Definition spec_structured_object (v : value) : bool :=
  match v with
  | VObj _ | VArr _ | VError _ _ => true
  | _ => false
  end.

(** The specification's failure variant of TweetLookupResult:
    [{ message, error }], both strings. *)
Definition spec_failure_variant (r : value) : Prop :=
  ∃ message error : string,
    r = VObj {[ "message" := VStr message; "error" := VStr error ]}.

(** The result the specification expects for an error envelope:
    [{ message: errors[0].title, error: errors[0].detail }]. *)
Definition spec_error_result (first : value) : value :=
  VObj {[ "message" := own_property first "title";
          "error" := own_property first "detail" ]}.


(** ** Concrete requests and replies *)

Module Scenario.
(** An axios response whose parsed body is [data]. *)
Definition axios_response (data : value) : value :=
  VObj {[ "data" := data; "status" := VNum 200%float;
          "statusText" := VStr "OK" ]}.

(** Scenario A of the specification: the lookup finds the tweet. *)
Definition found_id : string := "1234567890123456789".
Definition found_record : value :=
  VObj {[ "id" := VStr found_id; "text" := VStr "hello" ]}.
Definition found_envelope : value := VObj {[ "data" := VArr [found_record] ]}.

(** Scenario C: the lookup reports that there is no such tweet. *)
Definition missing_id : string := "0000000000000000000".
Definition not_found_record : value :=
  VObj {[ "title" := VStr "Not Found Error";
          "detail" := VStr "Could not find tweet with id: [0000000000000000000].";
          "value" := VStr missing_id ]}.
Definition not_found_envelope : value :=
  VObj {[ "errors" := VArr [not_found_record] ]}.
Definition not_found_result : value :=
  VObj {[ "text" := VObj {[
            "message" := VStr "Not Found Error";
            "error" := VStr "Could not find tweet with id: [0000000000000000000]." ]};
          "id" := VStr missing_id ]}.

(** A [data] field that is present and empty. *)
Definition empty_data_envelope : value := VObj {[ "data" := VArr [] ]}.

(** A body with neither [data] nor [errors]. *)
Definition empty_envelope : value := VObj ∅.

(** Scenario D: the sentiment service answers with a summary. *)
Definition love_body : value := VObj {[ "doc" := VStr "I love this" ]}.
Definition summary : value :=
  VObj {[ "score" := VNum 0.8%float; "magnitude" := VNum 0.9%float ]}.
Definition sentiment_result : value :=
  VObj {[ "documentSentiment" := summary; "language" := VStr "en" ]}.
Definition answering : language_service :=
  LanguageService (Normal ())
    (λ _, Normal (VArr [sentiment_result; VUndefined; VUndefined])).

(** The sentiment service refuses the credentials. *)
Definition permission_denied : value :=
  VError "Error" "7 PERMISSION_DENIED: The caller does not have permission".
Definition refusing : language_service :=
  LanguageService (Normal ()) (λ _, Throw permission_denied).

(** A sentiment service whose promise resolves with the bare summary. *)
Definition answering_bare : language_service :=
  LanguageService (Normal ()) (λ _, Normal summary).
End Scenario.

(** A store in which reference 1 points to the result of the not-found
    lookup. *)
Definition not_found_store : store :=
  {[ 1%positive :=
       {[ "text" := VObj {[
            "message" := VStr "Not Found Error";
            "error" := VStr "Could not find tweet with id: [0000000000000000000]." ]};
          "id" := VStr Scenario.missing_id ]} ]}.

(** * Properties *)

(** ** Completions *)

Section Completions.
Context {A B : Type}.
Implicit Types (c : completion A) (k : A → completion B).

Lemma bind_Normal_inv c k b :
  (c ≫= k) = Normal b → ∃ a, c = Normal a ∧ k a = Normal b.
Proof.
  destruct c as [a|e]; intros H.
  - exists a. split; [reflexivity | exact H].
  - discriminate H.
Qed.

Lemma bind_Throw_inv c k e :
  (c ≫= k) = Throw e → c = Throw e ∨ ∃ a, c = Normal a ∧ k a = Throw e.
Proof.
  destruct c as [a|e']; intros H.
  - right. exists a. split; [reflexivity | exact H].
  - left. injection H as ->. reflexivity.
Qed.
End Completions.

Section ThrowsOnly.
Context {A B : Type} (P : value → Prop).

Lemma throws_only_ret (a : A) : throws_only P (mret a).
Proof. by intros e. Qed.

Lemma throws_only_Normal (a : A) : throws_only P (Normal a).
Proof. by intros e. Qed.

Lemma throws_only_bind (c : completion A) (k : A → completion B) :
  throws_only P c → (∀ a, throws_only P (k a)) → throws_only P (c ≫= k).
Proof.
  intros Hc Hk e [He | (a & _ & He)]%bind_Throw_inv.
  - exact (Hc e He).
  - exact (Hk a e He).
Qed.

Lemma throws_only_if (b : bool) (c1 c2 : completion A) :
  throws_only P c1 → throws_only P c2 → throws_only P (if b then c1 else c2).
Proof. by destruct b. Qed.
End ThrowsOnly.

(** ** Property reads *)

Lemma get_Normal v k : nullish v = false → get v k = Normal (own_property v k).
Proof. unfold get. by intros ->. Qed.

Lemma get_Throw v k :
  nullish v = true → get v k = Throw (TypeError (cannot_read v k)).
Proof. unfold get. by intros ->. Qed.

Lemma get_throws_TypeError v k : throws_only is_TypeError (get v k).
Proof.
  unfold get. intros e. destruct (nullish v); [|done].
  intros [= <-]. by eexists.
Qed.

(** Walks through a sequence of reads: each can only throw a TypeError. *)
Ltac only_TypeErrors :=
  repeat first
    [ apply get_throws_TypeError
    | apply throws_only_ret
    | apply throws_only_Normal
    | apply throws_only_if
    | apply throws_only_bind; [|intros ?] ].

Lemma tweetIdIsValid_truthy tweet_response :
  nullish tweet_response = false →
  tweetIdIsValid tweet_response
  = Normal (truthy (own_property tweet_response "data")).
Proof. intros H. unfold tweetIdIsValid. by rewrite (get_Normal _ _ H). Qed.

Lemma truthy_not_nullish v : truthy v = true → nullish v = false.
Proof. by destruct v. Qed.

(** The [catch] block of [sendRequestToTwitter] on a TypeError. *)
Lemma report_error_TypeError message :
  report_error (TypeError message)
  = Normal (VObj {[ "error" := VStr message;
                    "full_stack" := TypeError message ]}).
Proof. done. Qed.

(** ** The classifier *)

Lemma responseForFrontendIsError_Normal payload :
  nullish payload = false →
  responseForFrontendIsError payload
  = Normal (spec_structured_object (own_property payload "text")).
Proof.
  intros Hp. unfold responseForFrontendIsError.
  rewrite (get_Normal _ _ Hp). simpl.
  by destruct (own_property payload "text").
Qed.

Lemma responseForFrontendIsError_Throw payload :
  nullish payload = true →
  responseForFrontendIsError payload
  = Throw (TypeError (cannot_read payload "text")).
Proof.
  intros Hp. unfold responseForFrontendIsError. by rewrite (get_Throw _ _ Hp).
Qed.

(** C3: a payload is classified as an error exactly when the value of its
    [text] field is a structured object, that is neither a primitive
    (string, number, boolean) nor [null] nor [undefined]. *)
Theorem classified_error_iff_structured_text (payload : value) :
  responseForFrontendIsError payload = Normal true ↔
  nullish payload = false ∧
  spec_structured_object (own_property payload "text") = true.
Proof.
  destruct (nullish payload) eqn:Hp.
  - rewrite (responseForFrontendIsError_Throw _ Hp).
    split; [discriminate | by intros [? _]].
  - rewrite (responseForFrontendIsError_Normal _ Hp).
    split; [by intros [= ->] | by intros [_ ->]].
Qed.

Example classified_string :
  responseForFrontendIsError (VObj {[ "text" := VStr "hello" ]}) = Normal false.
Proof. reflexivity. Qed.

Example classified_null :
  responseForFrontendIsError (VObj {[ "text" := VNull ]}) = Normal false.
Proof. reflexivity. Qed.

Example classified_missing :
  responseForFrontendIsError (VObj {[ "error" := VStr "no text" ]}) = Normal false.
Proof. reflexivity. Qed.

Example classified_object :
  responseForFrontendIsError (VObj {[ "text" := VObj ∅ ]}) = Normal true.
Proof. reflexivity. Qed.

Example classified_array :
  responseForFrontendIsError (VObj {[ "text" := VArr [] ]}) = Normal true.
Proof. reflexivity. Qed.

Lemma bind_run {A B : Type} (m : stateful A) (k : A → stateful B) (σ : store) :
  (m ≫= k) σ
  = match m σ with
    | (Normal a, σ') => k a σ'
    | (Throw e, σ') => (Throw e, σ')
    end.
Proof. reflexivity. Qed.

(** A read followed by a continuation: the continuation runs on the
    same store. *)
Lemma bind_load {A : Type} (p : loc) (k : string)
    (f : value → stateful A) (σ : store) :
  (load p k ≫= f) σ
  = match get (deref σ p) k with
    | Normal v => f v σ
    | Throw e => (Throw e, σ)
    end.
Proof. reflexivity. Qed.

(** The classifier only reads: the store it leaves is the store it
    found, and its outcome is that of the classifier on the object the
    reference points to. *)
Lemma responseForFrontendIsError_at_reads (data : loc) (σ : store) :
  responseForFrontendIsError_at data σ
  = (responseForFrontendIsError (deref σ data), σ).
Proof.
  unfold responseForFrontendIsError_at, responseForFrontendIsError.
  rewrite bind_load.
  destruct (get (deref σ data) "text") as [text|e] eqn:Hread; [|reflexivity].
  cbn [mbind completion_bind].
  destruct (String.eqb (typeof text) "object"); [|reflexivity].
  by rewrite bind_load, Hread.
Qed.

(** The callback writes the object as it was before the classification. *)
Lemma respond_at_reads (data : loc) (σ : store) :
  ∃ written,
    respond_at data σ = (written, σ) ∧
    respond (deref σ data)
    = match written with Normal r => r | Throw _ => None end.
Proof.
  unfold respond_at, respond.
  rewrite bind_run, responseForFrontendIsError_at_reads.
  destruct (responseForFrontendIsError (deref σ data)) as [[]|e]; by eexists.
Qed.

(** An assignment is seen through the reference: reads alone would not
    be, which is what the statement below is about. *)
Example assign_changes_classification :
  deref not_found_store 1%positive = Scenario.not_found_result ∧
  responseForFrontendIsError_at 1%positive not_found_store
  = (Normal true, not_found_store) ∧
  (_ ← assign 1%positive "text" (VStr "hello"); responseForFrontendIsError_at 1%positive)
    not_found_store
  = (Normal false,
     {[ 1%positive := {[ "text" := VStr "hello";
                         "id" := VStr Scenario.missing_id ]} ]}).
Proof. split_and!; reflexivity. Qed.

(** C8: classification is idempotent.  The classifier receives a
    reference to the payload and only reads through it: the object the
    reference points to after the classification is the object it pointed
    to before (the whole store is left as it was), so classifying it again
    yields the same boolean, and the callback passes that unmodified
    object to [response.json]. *)
Theorem classification_idempotent
    (data : loc) (σ σ' : store) (outcome : completion bool) :
  responseForFrontendIsError_at data σ = (outcome, σ') →
  σ' = σ ∧
  deref σ' data = deref σ data ∧
  responseForFrontendIsError_at data σ' = (outcome, σ') ∧
  (isError ← responseForFrontendIsError_at data;
   responseForFrontendIsError_at data) σ
  = responseForFrontendIsError_at data σ ∧
  ∃ written,
    respond_at data σ = (written, σ) ∧
    respond (deref σ data)
    = match written with Normal r => r | Throw _ => None end.
Proof.
  rewrite responseForFrontendIsError_at_reads. intros [= <- <-].
  split_and!;
    [done | done | apply responseForFrontendIsError_at_reads | | apply respond_at_reads].
  rewrite bind_run, responseForFrontendIsError_at_reads.
  destruct (responseForFrontendIsError (deref σ data)) eqn:Hclass; [|done].
  by rewrite responseForFrontendIsError_at_reads, Hclass.
Qed.

Lemma classification_idempotent_witness :
  not_found_store = not_found_store ∧
  deref not_found_store 1%positive = deref not_found_store 1%positive ∧
  responseForFrontendIsError_at 1%positive not_found_store
  = (Normal true, not_found_store) ∧
  (isError ← responseForFrontendIsError_at 1%positive;
   responseForFrontendIsError_at 1%positive) not_found_store
  = responseForFrontendIsError_at 1%positive not_found_store ∧
  ∃ written,
    respond_at 1%positive not_found_store = (written, not_found_store) ∧
    respond (deref not_found_store 1%positive)
    = match written with Normal r => r | Throw _ => None end.
Proof.
  exact (classification_idempotent 1%positive not_found_store not_found_store
           (Normal true) eq_refl).
Defined.

(** ** POST /analyze/:id *)

(** C4: an identifier whose length is not 19 is answered 400 with the
    fixed "Invalid ID." body, whatever the lookup service would do, and no
    upstream call is made. *)
Theorem invalid_length_rejected
    (instance_get : string → completion value) (id : string) :
  String.length id ≠ 19 →
  analyze_id instance_get id =
  {| upstream_calls := [];
     sent := Some {| status := 400;
                     content := Json (VObj {[
                       "error" := VStr "Invalid ID.";
                       "message" := VStr "ID must be a 19-character long Tweet ID." ]}) |} |}.
Proof.
  intros Hlen. unfold analyze_id.
  by destruct (Nat.eqb_spec (String.length id) 19).
Qed.

Lemma invalid_length_rejected_witness :
  analyze_id (λ _, Throw VUndefined) "short" =
  {| upstream_calls := [];
     sent := Some {| status := 400;
                     content := Json (VObj {[
                       "error" := VStr "Invalid ID.";
                       "message" := VStr "ID must be a 19-character long Tweet ID." ]}) |} |}.
Proof. apply invalid_length_rejected. simpl. lia. Defined.

(** ** The tweet-lookup parser *)

(** Rewrites the property reads whose subject is known not to be
    [undefined] or [null]. *)
Ltac read_properties :=
  repeat match goal with
  | H : nullish ?v = false |- context [get ?v ?k] =>
      rewrite (get_Normal v k H); cbn [mbind completion_bind mret completion_ret]
  | H : nullish ?v = true |- context [get ?v ?k] =>
      rewrite (get_Throw v k H); cbn [mbind completion_bind mret completion_ret]
  | H : own_property ?v ?k = _ |- context [own_property ?v ?k] => rewrite H
  end.

Section Envelope.
Variables (twitter_response envelope : value).
Hypothesis response_data : get twitter_response "data" = Normal envelope.
Hypothesis envelope_defined : nullish envelope = false.

(** The [else] branches: the [data] field is falsy. *)
Lemma extract_fields_errors (errors first : value) :
  truthy (own_property envelope "data") = false →
  own_property envelope "errors" = errors →
  nullish errors = false →
  own_property errors "0" = first →
  nullish first = false →
  extract_fields twitter_response =
  Normal (VObj {[ "text" := VObj {[ "message" := own_property first "title";
                                     "error" := own_property first "detail" ]};
                  "id" := own_property first "value" ]}).
Proof.
  intros Hdata Herrors ? Hfirst ?.
  unfold extract_fields. rewrite response_data. cbn [mbind completion_bind].
  unfold extractText, extractId, tweetIdIsValid.
  read_properties. rewrite !Hdata. by read_properties.
Qed.

(** The [then] branches: the [data] field is truthy. *)
Lemma extract_fields_data (data first : value) :
  own_property envelope "data" = data →
  truthy data = true →
  own_property data "0" = first →
  nullish first = false →
  extract_fields twitter_response =
  Normal (VObj {[ "text" := own_property first "text";
                  "id" := own_property first "id" ]}).
Proof.
  intros Hdata Htruthy Hfirst ?.
  pose proof (truthy_not_nullish _ Htruthy).
  unfold extract_fields. rewrite response_data. cbn [mbind completion_bind].
  unfold extractText, extractId, tweetIdIsValid.
  read_properties. rewrite !Htruthy. by read_properties.
Qed.

(** A truthy [data] field without an element 0: reading [text] of
    [undefined] throws. *)
Lemma extract_fields_no_first (data : value) :
  own_property envelope "data" = data →
  truthy data = true →
  own_property data "0" = VUndefined →
  extract_fields twitter_response =
  Throw (TypeError (cannot_read VUndefined "text")).
Proof.
  intros Hdata Htruthy Hfirst.
  pose proof (truthy_not_nullish _ Htruthy).
  unfold extract_fields. rewrite response_data. cbn [mbind completion_bind].
  unfold extractText, tweetIdIsValid.
  read_properties. rewrite !Htruthy. by read_properties.
Qed.
End Envelope.

Lemma extract_fields_throws_TypeError twitter_response :
  throws_only is_TypeError (extract_fields twitter_response).
Proof.
  unfold extract_fields, extractText, extractId, tweetIdIsValid.
  only_TypeErrors.
Qed.

Lemma sendRequestToTwitter_Normal twitter_response r :
  extract_fields twitter_response = Normal r →
  sendRequestToTwitter twitter_response = Normal r.
Proof. unfold sendRequestToTwitter. by intros ->. Qed.

Lemma sendRequestToTwitter_Throw twitter_response message :
  extract_fields twitter_response = Throw (TypeError message) →
  sendRequestToTwitter twitter_response =
  Normal (VObj {[ "error" := VStr message;
                  "full_stack" := TypeError message ]}).
Proof.
  unfold sendRequestToTwitter. intros ->. apply report_error_TypeError.
Qed.

(** C1 (as stated) fails: for the "Not Found Error" envelope, which has
    no [data] field and one error record, the parser does not return the
    flat object [{ message, error }]. *)
Lemma error_envelope_result_not_flat :
  ∃ fields first rest,
    Scenario.not_found_envelope = VObj fields ∧
    fields !! "data" = None ∧
    fields !! "errors" = Some (VArr (first :: rest)) ∧
    sendRequestToTwitter (Scenario.axios_response Scenario.not_found_envelope)
    ≠ Normal (spec_error_result first).
Proof.
  eexists _, Scenario.not_found_record, []. repeat split.
  intros Heq.
  apply (f_equal (λ c, c ≫= λ r, get r "text")) in Heq.
  vm_compute in Heq. discriminate Heq.
Qed.

(** C1 (as amended): for an envelope with no [data] field and a non-empty
    [errors] sequence whose first record is not [null], the parser
    returns [{ text: { message: errors[0].title, error: errors[0].detail },
    id: errors[0].value }], and this result is classified as an error. *)
Theorem error_envelope_result
    (twitter_response : value) (fields : gmap string value)
    (first : value) (rest : list value) :
  get twitter_response "data" = Normal (VObj fields) →
  fields !! "data" = None →
  fields !! "errors" = Some (VArr (first :: rest)) →
  nullish first = false →
  let result :=
    VObj {[ "text" := VObj {[ "message" := own_property first "title";
                               "error" := own_property first "detail" ]};
            "id" := own_property first "value" ]} in
  sendRequestToTwitter twitter_response = Normal result ∧
  responseForFrontendIsError result = Normal true.
Proof.
  intros Hres Hdata Herrors Hfirst result. split; [|done].
  apply sendRequestToTwitter_Normal.
  apply (extract_fields_errors _ _ Hres eq_refl (VArr (first :: rest)) first);
    [|  | done | done | done]; simpl.
  - by rewrite Hdata.
  - by rewrite Herrors.
Qed.

Lemma error_envelope_result_witness :
  sendRequestToTwitter (Scenario.axios_response Scenario.not_found_envelope)
  = Normal Scenario.not_found_result ∧
  responseForFrontendIsError Scenario.not_found_result = Normal true.
Proof.
  exact (error_envelope_result
           (Scenario.axios_response Scenario.not_found_envelope)
           _ Scenario.not_found_record [] eq_refl eq_refl eq_refl eq_refl).
Defined.

(** C2: for an envelope whose [data] field is a non-empty sequence of
    tweet records, the parser returns [{ id: data[0].id, text: data[0].text }]
    whatever the other records are, and the result is classified as a
    success.  A tweet record is a value other than [null] whose [text] is
    a primitive (in the data model: an object whose [text] is a string). *)
Theorem data_envelope_result
    (twitter_response : value) (fields : gmap string value)
    (first : value) (rest : list value) :
  get twitter_response "data" = Normal (VObj fields) →
  fields !! "data" = Some (VArr (first :: rest)) →
  nullish first = false →
  spec_structured_object (own_property first "text") = false →
  let result :=
    VObj {[ "id" := own_property first "id";
            "text" := own_property first "text" ]} in
  sendRequestToTwitter twitter_response = Normal result ∧
  responseForFrontendIsError result = Normal false.
Proof.
  intros Hres Hdata Hfirst Htext result. split.
  - apply sendRequestToTwitter_Normal.
    rewrite (extract_fields_data _ _ Hres eq_refl (VArr (first :: rest)) first)
      by (simpl; rewrite ?Hdata; done).
    reflexivity.
  - rewrite responseForFrontendIsError_Normal by done.
    change (own_property result "text") with (own_property first "text").
    by rewrite Htext.
Qed.

Lemma data_envelope_result_witness :
  sendRequestToTwitter
    (Scenario.axios_response
       (VObj {[ "data" := VArr [Scenario.found_record;
                                Scenario.not_found_record] ]}))
  = Normal Scenario.found_record ∧
  responseForFrontendIsError Scenario.found_record = Normal false.
Proof.
  exact (data_envelope_result
           (Scenario.axios_response
              (VObj {[ "data" := VArr [Scenario.found_record;
                                       Scenario.not_found_record] ]}))
           _ Scenario.found_record [Scenario.not_found_record]
           eq_refl eq_refl eq_refl eq_refl).
Defined.

(** C6 (as stated) fails: on a body with neither [data] nor [errors] the
    extraction throws, and what the [catch] block returns is not of the
    shape [{ message, error }] with two strings. *)
Lemma caught_result_not_failure_variant :
  let twitter_response := Scenario.axios_response Scenario.empty_envelope in
  extract_fields twitter_response
  = Throw (TypeError (cannot_read VUndefined "0")) ∧
  ∃ r, sendRequestToTwitter twitter_response = Normal r ∧
       ¬ spec_failure_variant r.
Proof.
  split; [reflexivity|]. eexists. split; [reflexivity|].
  intros (message & error & Heq).
  apply (f_equal (λ r, own_property r "full_stack")) in Heq.
  vm_compute in Heq. discriminate Heq.
Qed.

(** C6 (as amended): [sendRequestToTwitter] always returns a result and
    never throws; when the extraction of the fields throws, the exception
    is a TypeError and the result is
    [{ error: <its message>, full_stack: <the exception object> }]. *)
Theorem sendRequestToTwitter_catches (twitter_response : value) :
  (∃ r, sendRequestToTwitter twitter_response = Normal r) ∧
  ∀ error, extract_fields twitter_response = Throw error →
    ∃ message,
      error = TypeError message ∧
      sendRequestToTwitter twitter_response
      = Normal (VObj {[ "error" := VStr message; "full_stack" := error ]}).
Proof.
  assert (∀ error, extract_fields twitter_response = Throw error →
    ∃ message,
      error = TypeError message ∧
      sendRequestToTwitter twitter_response
      = Normal (VObj {[ "error" := VStr message; "full_stack" := error ]}))
    as Hcaught.
  { intros error Hthrow.
    destruct (extract_fields_throws_TypeError _ _ Hthrow) as [message ->].
    exists message. split; [done|]. by apply sendRequestToTwitter_Throw. }
  split; [|done].
  destruct (extract_fields twitter_response) as [r|error] eqn:Hfields.
  - exists r. by apply sendRequestToTwitter_Normal.
  - destruct (Hcaught error eq_refl) as (message & _ & ->). by eexists.
Qed.

Lemma sendRequestToTwitter_catches_witness :
  ∃ message,
    TypeError (cannot_read VUndefined "0") = TypeError message ∧
    sendRequestToTwitter (Scenario.axios_response Scenario.empty_envelope)
    = Normal (VObj {[ "error" := VStr message;
                      "full_stack" := TypeError (cannot_read VUndefined "0") ]}).
Proof.
  exact (proj2 (sendRequestToTwitter_catches
                  (Scenario.axios_response Scenario.empty_envelope))
               (TypeError (cannot_read VUndefined "0")) eq_refl).
Defined.

(** ** POST /analyze/:id, continued *)

Lemma analyze_id_resolved instance_get id twitter_response data :
  String.length id = 19 →
  instance_get (buildURL id) = Normal twitter_response →
  sendRequestToTwitter twitter_response = Normal data →
  analyze_id instance_get id = Outcome [buildURL id] (respond data).
Proof.
  intros Hlen Hget Hsend. unfold analyze_id.
  rewrite Hlen. simpl. by rewrite Hget, Hsend.
Qed.

(** The identifier endpoint answers 200 or 400, if it answers. *)
Lemma analyze_id_status instance_get id r :
  sent (analyze_id instance_get id) = Some r → status r = 200 ∨ status r = 400.
Proof.
  unfold analyze_id. destruct (negb _); [intros [= <-]; by right|].
  destruct (instance_get _) as [res|]; [|done].
  destruct (sendRequestToTwitter res) as [data|]; [|done].
  unfold respond. simpl.
  destruct (responseForFrontendIsError data) as [[]|]; [| |done];
    intros [= <-]; auto.
Qed.

(** Scenario A of the specification: the tweet is found. *)
Example analyze_found_tweet :
  analyze_id (λ _, Normal (Scenario.axios_response Scenario.found_envelope))
             Scenario.found_id
  = {| upstream_calls := ["https://api.twitter.com/2/tweets?ids=1234567890123456789"];
       sent := Some {| status := 200; content := Json Scenario.found_record |} |}.
Proof. reflexivity. Qed.

(** Scenario C: the tweet is not found; the payload nests the upstream
    title and detail under [text]. *)
Example analyze_missing_tweet :
  analyze_id (λ _, Normal (Scenario.axios_response Scenario.not_found_envelope))
             Scenario.missing_id
  = {| upstream_calls := ["https://api.twitter.com/2/tweets?ids=0000000000000000000"];
       sent := Some {| status := 400;
                       content := Json Scenario.not_found_result |} |}.
Proof. reflexivity. Qed.

(** A rejected lookup (axios rejects any status outside 2xx) is handled
    by nobody: one call, no response. *)
Example analyze_rejected_lookup :
  analyze_id (λ _, Throw (VError "AxiosError" "Request failed with status code 400"))
             "abcdefghijklmnopqrs"
  = {| upstream_calls := ["https://api.twitter.com/2/tweets?ids=abcdefghijklmnopqrs"];
       sent := None |}.
Proof. reflexivity. Qed.

(** C9: the discriminator only tests whether [data] is truthy.  For an
    envelope whose [data] field is an empty sequence the data branch is
    taken, reading [text] of the missing element 0 throws, the [catch]
    block returns [{ error, full_stack }], which has no [text] field, and
    that result is classified as a success and sent with status 200. *)
Theorem empty_data_answers_OK
    (instance_get : string → completion value) (id : string)
    (twitter_response : value) (fields : gmap string value) :
  String.length id = 19 →
  instance_get (buildURL id) = Normal twitter_response →
  get twitter_response "data" = Normal (VObj fields) →
  fields !! "data" = Some (VArr []) →
  let error := TypeError (cannot_read VUndefined "text") in
  let caught : gmap string value :=
    {[ "error" := VStr (cannot_read VUndefined "text");
       "full_stack" := error ]} in
  tweetIdIsValid (VObj fields) = Normal true ∧
  extract_fields twitter_response = Throw error ∧
  sendRequestToTwitter twitter_response = Normal (VObj caught) ∧
  caught !! "text" = None ∧
  responseForFrontendIsError (VObj caught) = Normal false ∧
  analyze_id instance_get id =
  {| upstream_calls := [buildURL id];
     sent := Some {| status := 200; content := Json (VObj caught) |} |}.
Proof.
  intros Hlen Hget Hres Hdata error caught.
  assert (extract_fields twitter_response = Throw error) as Hthrow.
  { apply (extract_fields_no_first _ _ Hres eq_refl (VArr []));
      [by simpl; rewrite Hdata | done | done]. }
  pose proof (sendRequestToTwitter_Throw _ _ Hthrow) as Hsend.
  split_and!.
  - rewrite tweetIdIsValid_truthy by done. simpl. by rewrite Hdata.
  - exact Hthrow.
  - exact Hsend.
  - reflexivity.
  - reflexivity.
  - by rewrite (analyze_id_resolved _ _ _ _ Hlen Hget Hsend).
Qed.

Lemma empty_data_answers_OK_witness :
  analyze_id
    (λ _, Normal (Scenario.axios_response Scenario.empty_data_envelope))
    Scenario.found_id =
  {| upstream_calls := [buildURL Scenario.found_id];
     sent := Some {| status := 200;
                     content := Json (VObj {[
                       "error" := VStr (cannot_read VUndefined "text");
                       "full_stack" := TypeError (cannot_read VUndefined "text") ]}) |} |}.
Proof.
  apply (empty_data_answers_OK
           (λ _, Normal (Scenario.axios_response Scenario.empty_data_envelope))
           Scenario.found_id
           (Scenario.axios_response Scenario.empty_data_envelope)
           {[ "data" := VArr [] ]});
    reflexivity.
Defined.

(** ** The sentiment client *)

Lemma analyzeSentiment_returns language doc :
  ∃ v, analyzeSentiment language doc = Normal v.
Proof.
  unfold analyzeSentiment.
  destruct (request_sentiment language doc) as [v|e]; by eexists.
Qed.

Lemma request_sentiment_fault language doc :
  upstream_fault language doc → ∃ e, request_sentiment language doc = Throw e.
Proof.
  unfold request_sentiment. intros [[e He] | [e He]].
  - exists e. by rewrite He.
  - destruct (LanguageServiceClient language) as [[]|e']; [|by eexists].
    exists e. cbn [mbind completion_bind]. by rewrite He.
Qed.

Lemma analyzeSentiment_fault language doc :
  upstream_fault language doc → analyzeSentiment language doc = Normal VUndefined.
Proof.
  intros [e He]%request_sentiment_fault. unfold analyzeSentiment. by rewrite He.
Qed.

(** Only an object has a [documentSentiment]. *)
Lemma documentSentiment_object result :
  nullish (own_property result "documentSentiment") = false →
  ∃ fields, result = VObj fields.
Proof. destruct result; try done. by eexists. Qed.

Lemma own_property_defined v k : nullish (own_property v k) = false → nullish v = false.
Proof. by destruct v. Qed.

Lemma template_literal_Normal v :
  converts_to_string v = true → template_literal v = Normal ().
Proof. unfold template_literal. by intros ->. Qed.

(** The call succeeds and every line can be logged: the whole first
    element of the reply is returned. *)
Lemma analyzeSentiment_result language doc reply result :
  LanguageServiceClient language = Normal () →
  client_analyzeSentiment language (sentiment_request doc) = Normal reply →
  destructure_first reply = Normal result →
  nullish (own_property result "documentSentiment") = false →
  converts_to_string doc = true →
  converts_to_string
    (own_property (own_property result "documentSentiment") "score") = true →
  converts_to_string
    (own_property (own_property result "documentSentiment") "magnitude") = true →
  analyzeSentiment language doc = Normal result.
Proof.
  intros Hnew Hcall Hfirst Hsentiment Hdoc Hscore Hmagnitude.
  destruct (documentSentiment_object _ Hsentiment) as [fields ->].
  unfold analyzeSentiment, request_sentiment.
  rewrite Hnew. cbn [mbind completion_bind]. rewrite Hcall.
  cbn [mbind completion_bind]. rewrite Hfirst.
  cbn [mbind completion_bind]. rewrite (get_Normal (VObj fields)) by done.
  cbn [mbind completion_bind]. rewrite !(get_Normal _ _ Hsentiment).
  rewrite (template_literal_Normal _ Hdoc). cbn [mbind completion_bind].
  rewrite (template_literal_Normal _ Hscore). cbn [mbind completion_bind].
  by rewrite (template_literal_Normal _ Hmagnitude).
Qed.

(** ** POST /google/analyze *)

Lemma google_analyze_defined language req_body :
  nullish req_body = false →
  google_analyze language req_body =
  match try_catch (send_sentiment language (own_property req_body "doc"))
                  send_unauthorized with
  | Normal written => written
  | Throw _ => None
  end.
Proof. unfold google_analyze, destructure. by intros ->. Qed.

Lemma google_analyze_undefined language req_body :
  nullish req_body = true → google_analyze language req_body = None.
Proof. unfold google_analyze, destructure. by intros ->. Qed.

(** The handler's [catch] block is dead code: whatever the service does,
    a response that is written has status 200. *)
Lemma google_analyze_status language req_body r :
  google_analyze language req_body = Some r → status r = 200.
Proof.
  unfold google_analyze.
  destruct (destructure _ _ _) as [doc|]; [|done].
  unfold send_sentiment.
  destruct (analyzeSentiment_returns language doc) as [v ->].
  cbn [mbind completion_bind]. destruct (truthy v); [|done].
  by intros [= <-].
Qed.

(** C5: the code at a failing input.  The sentiment service rejects the
    call (the credentials are refused); the handler writes no response,
    where the claim asks for a 401 with a plain-text body. *)
Lemma refused_sentiment_request_unanswered :
  upstream_fault Scenario.refusing (VStr "I love this") ∧
  google_analyze Scenario.refusing Scenario.love_body = None ∧
  google_analyze Scenario.refusing Scenario.love_body
  ≠ Some {| status := 401; content := Text "error" |}.
Proof. split; [right; by eexists | done]. Qed.

(** C7 (as stated) fails: when the sentiment call succeeds with the
    summary [{ score: 0.8, magnitude: 0.9 }], carried under
    [documentSentiment] by the first element of the reply, the response
    is not "200 with the summary"; and when the promise resolves with the
    bare summary, nothing is sent at all. *)
Lemma sentiment_response_is_not_the_summary :
  let expected := Some {| status := 200; content := Json Scenario.summary |} in
  (∃ result rest,
     client_analyzeSentiment Scenario.answering
       (sentiment_request (VStr "I love this")) = Normal (VArr (result :: rest)) ∧
     own_property result "documentSentiment" = Scenario.summary ∧
     google_analyze Scenario.answering Scenario.love_body ≠ expected) ∧
  (client_analyzeSentiment Scenario.answering_bare
     (sentiment_request (VStr "I love this")) = Normal Scenario.summary ∧
   google_analyze Scenario.answering_bare Scenario.love_body = None).
Proof.
  split; [|done].
  eexists _, _. split; [reflexivity|]. split; [reflexivity|].
  intros Heq.
  apply (f_equal (λ r : option http_response,
           match r with
           | Some {| content := Json v |} => own_property v "score"
           | _ => VNull
           end)) in Heq.
  vm_compute in Heq. discriminate Heq.
Qed.

(** C7 (as amended): for a text document, when the sentiment call
    resolves with a reply whose first element [result] carries under
    [documentSentiment] a summary with a numeric [score] and [magnitude],
    the handler reads the two numbers and responds 200 with the whole
    [result] object, in which the summary stays nested under
    [documentSentiment]. *)
Theorem sentiment_success_sends_result
    (language : language_service) (req_body reply result : value)
    (doc : string) (score magnitude : float) :
  own_property req_body "doc" = VStr doc →
  LanguageServiceClient language = Normal () →
  client_analyzeSentiment language (sentiment_request (VStr doc)) = Normal reply →
  destructure_first reply = Normal result →
  own_property (own_property result "documentSentiment") "score" = VNum score →
  own_property (own_property result "documentSentiment") "magnitude"
  = VNum magnitude →
  google_analyze language req_body =
  Some {| status := 200; content := Json result |}.
Proof.
  intros Hdoc Hnew Hcall Hfirst Hscore Hmagnitude.
  assert (nullish req_body = false) as Hbody
    by (apply (own_property_defined _ "doc"); by rewrite Hdoc).
  assert (nullish (own_property result "documentSentiment") = false)
    as Hsentiment by (apply (own_property_defined _ "score"); by rewrite Hscore).
  rewrite (google_analyze_defined _ _ Hbody), Hdoc. unfold send_sentiment.
  rewrite (analyzeSentiment_result _ _ _ _ Hnew Hcall Hfirst Hsentiment);
    [| done | by rewrite Hscore | by rewrite Hmagnitude].
  by destruct (documentSentiment_object _ Hsentiment) as [fields ->].
Qed.

Lemma sentiment_success_sends_result_witness :
  google_analyze Scenario.answering Scenario.love_body =
  Some {| status := 200; content := Json Scenario.sentiment_result |}.
Proof.
  apply (sentiment_success_sends_result Scenario.answering Scenario.love_body
           (VArr [Scenario.sentiment_result; VUndefined; VUndefined])
           Scenario.sentiment_result "I love this" 0.8%float 0.9%float);
    reflexivity.
Defined.

(** C10: [analyzeSentiment] never throws: it always returns, and on an
    upstream fault it returns [undefined].  The [try] block of the handler
    then completes without writing a response, so its [catch] block does
    not run and the caller receives no response at all. *)
Theorem sentiment_fault_sends_nothing
    (language : language_service) (req_body : value) :
  (∀ doc, ∃ v, analyzeSentiment language doc = Normal v) ∧
  (upstream_fault language (own_property req_body "doc") →
   analyzeSentiment language (own_property req_body "doc") = Normal VUndefined ∧
   send_sentiment language (own_property req_body "doc") = Normal None ∧
   google_analyze language req_body = None).
Proof.
  split; [intros doc; apply analyzeSentiment_returns|].
  intros Hfault%analyzeSentiment_fault.
  assert (send_sentiment language (own_property req_body "doc") = Normal None)
    as Hsend by (unfold send_sentiment; by rewrite Hfault).
  split_and!; [done | done |].
  destruct (nullish req_body) eqn:Hbody.
  - by apply google_analyze_undefined.
  - rewrite (google_analyze_defined _ _ Hbody). by rewrite Hsend.
Qed.

Lemma sentiment_fault_sends_nothing_witness :
  analyzeSentiment Scenario.refusing (VStr "I love this") = Normal VUndefined ∧
  send_sentiment Scenario.refusing (VStr "I love this") = Normal None ∧
  google_analyze Scenario.refusing Scenario.love_body = None.
Proof.
  apply (proj2 (sentiment_fault_sends_nothing Scenario.refusing Scenario.love_body)).
  right. by exists Scenario.permission_denied.
Defined.

(** * Further properties of the backend *)

(** ** [buildURL] and the upstream calls of POST /analyze/:id *)

(** X1: [buildURL] is injective: two identifiers are looked up at the same
    URL only if they are the same identifier. *)
Theorem buildURL_inj (a b : string) : buildURL a = buildURL b ↔ a = b.
Proof.
  split; [|by intros ->].
  intros Heq. cbv in Heq. by injection Heq.
Qed.

(** X2: the identifier endpoint calls the lookup service exactly once, at
    [buildURL id], when the identifier has 19 characters, and not at all
    otherwise, whatever the service answers. *)
Theorem upstream_calls_by_length
    (instance_get : string → completion value) (id : string) :
  upstream_calls (analyze_id instance_get id)
  = if decide (String.length id = 19) then [buildURL id] else [].
Proof.
  unfold analyze_id.
  destruct (Nat.eqb_spec (String.length id) 19) as [Hlen|Hlen];
    case_decide; try done; simpl.
  destruct (instance_get _) as [res|]; [|done].
  by destruct (sendRequestToTwitter res).
Qed.

(** ** The result of [sendRequestToTwitter] *)

Lemma extract_fields_Normal_inv twitter_response r :
  extract_fields twitter_response = Normal r →
  ∃ text id, r = VObj {[ "text" := text; "id" := id ]}.
Proof.
  unfold extract_fields.
  intros (env & _ & (text & _ & (id & _ & [= <-])%bind_Normal_inv)
            %bind_Normal_inv)%bind_Normal_inv.
  by exists text, id.
Qed.

Lemma sendRequestToTwitter_cases twitter_response :
  (∃ text id,
     extract_fields twitter_response = Normal (VObj {[ "text" := text; "id" := id ]}) ∧
     sendRequestToTwitter twitter_response
     = Normal (VObj {[ "text" := text; "id" := id ]})) ∨
  (∃ message,
     extract_fields twitter_response = Throw (TypeError message) ∧
     sendRequestToTwitter twitter_response
     = Normal (VObj {[ "error" := VStr message;
                       "full_stack" := TypeError message ]})).
Proof.
  destruct (extract_fields twitter_response) as [r|e] eqn:Hfields.
  - left. destruct (extract_fields_Normal_inv _ _ Hfields) as (text & id & ->).
    exists text, id. split; [done|]. by apply sendRequestToTwitter_Normal.
  - right. destruct (extract_fields_throws_TypeError _ _ Hfields) as [message ->].
    exists message. split; [done|]. by apply sendRequestToTwitter_Throw.
Qed.

(** X3: whatever the axios response is, [sendRequestToTwitter] returns an
    object whose keys are exactly [text] and [id], or exactly [error] and
    [full_stack]; in the second case [error] is the message of the
    TypeError stored in [full_stack]. *)
Theorem sendRequestToTwitter_shape (twitter_response : value) :
  ∃ fields : gmap string value,
    sendRequestToTwitter twitter_response = Normal (VObj fields) ∧
    (dom fields = {[ "text"; "id" ]} ∨
     dom fields = {[ "error"; "full_stack" ]} ∧
     ∃ message,
       fields !! "error" = Some (VStr message) ∧
       fields !! "full_stack" = Some (TypeError message)).
Proof.
  destruct (sendRequestToTwitter_cases twitter_response)
    as [(text & id & _ & ->) | (message & _ & ->)]; eexists; (split; [done|]).
  - left. by rewrite dom_insert_L, dom_singleton_L.
  - right. split; [by rewrite dom_insert_L, dom_singleton_L|].
    by exists message.
Qed.

Lemma respond_object (fields : gmap string value) :
  respond (VObj fields)
  = Some {| status := if spec_structured_object (default VUndefined (fields !! "text"))
                      then 400 else 200;
            content := Json (VObj fields) |}.
Proof.
  unfold respond. rewrite responseForFrontendIsError_Normal by done. simpl.
  by destruct (spec_structured_object _).
Qed.

Lemma sendRequestToTwitter_object twitter_response :
  ∃ fields : gmap string value,
    sendRequestToTwitter twitter_response = Normal (VObj fields).
Proof.
  destruct (sendRequestToTwitter_cases twitter_response)
    as [(text & id & _ & ->) | (message & _ & ->)]; by eexists.
Qed.

(** X4: when the lookup resolves for a 19-character identifier, the
    endpoint always answers: the body is the object [sendRequestToTwitter]
    returned, unchanged, and the status is 400 if its [text] is an object
    or an array and 200 otherwise. *)
Theorem resolved_lookup_is_answered
    (instance_get : string → completion value) (id : string)
    (twitter_response : value) :
  String.length id = 19 →
  instance_get (buildURL id) = Normal twitter_response →
  ∃ fields : gmap string value,
    sendRequestToTwitter twitter_response = Normal (VObj fields) ∧
    sent (analyze_id instance_get id)
    = Some {| status := if spec_structured_object
                             (default VUndefined (fields !! "text"))
                        then 400 else 200;
              content := Json (VObj fields) |}.
Proof.
  intros Hlen Hget.
  destruct (sendRequestToTwitter_object twitter_response) as (fields & Hsend).
  exists fields. split; [done|].
  by rewrite (analyze_id_resolved _ _ _ _ Hlen Hget Hsend), respond_object.
Qed.

Lemma resolved_lookup_is_answered_witness :
  ∃ fields : gmap string value,
    sendRequestToTwitter (Scenario.axios_response Scenario.found_envelope)
    = Normal (VObj fields) ∧
    sent (analyze_id
            (λ _, Normal (Scenario.axios_response Scenario.found_envelope))
            Scenario.found_id)
    = Some {| status := if spec_structured_object
                             (default VUndefined (fields !! "text"))
                        then 400 else 200;
              content := Json (VObj fields) |}.
Proof.
  apply (resolved_lookup_is_answered
           (λ _, Normal (Scenario.axios_response Scenario.found_envelope))
           Scenario.found_id);
    reflexivity.
Defined.

(** X5: the identifier endpoint leaves a request unanswered exactly when
    the identifier has 19 characters and the lookup is rejected: the chain
    of [then] has no [catch]. *)
Theorem unanswered_iff_lookup_rejected
    (instance_get : string → completion value) (id : string) :
  sent (analyze_id instance_get id) = None ↔
  String.length id = 19 ∧ ∃ e, instance_get (buildURL id) = Throw e.
Proof.
  split.
  - destruct (decide (String.length id = 19)) as [Hlen|Hlen].
    + destruct (instance_get (buildURL id)) as [res|e] eqn:Hget.
      * destruct (sendRequestToTwitter_object res) as (fields & Hsend).
        by rewrite (analyze_id_resolved _ _ _ _ Hlen Hget Hsend), respond_object.
      * intros _. split; [done|]. by exists e.
    + unfold analyze_id.
      by destruct (Nat.eqb_spec (String.length id) 19).
  - intros [Hlen [e Hget]]. unfold analyze_id.
    rewrite Hlen. simpl. by rewrite Hget.
Qed.

(** ** When the extraction of the fields throws *)

Section Failures.
Variables (twitter_response envelope : value).
Hypothesis response_data : get twitter_response "data" = Normal envelope.


Hypothesis envelope_defined : nullish envelope = false.



End Failures.






(** X8: whenever the extraction throws on a resolved lookup, the caller is
    answered 200, not 400: the body [{ error, full_stack }] has no [text]
    for the classifier to find. *)
Theorem extraction_failure_answered_OK
    (instance_get : string → completion value) (id : string)
    (twitter_response e : value) :
  String.length id = 19 →
  instance_get (buildURL id) = Normal twitter_response →
  extract_fields twitter_response = Throw e →
  ∃ message,
    e = TypeError message ∧
    analyze_id instance_get id =
    {| upstream_calls := [buildURL id];
       sent := Some {| status := 200;
                       content := Json (VObj {[ "error" := VStr message;
                                                "full_stack" := e ]}) |} |}.
Proof.
  intros Hlen Hget Hthrow.
  destruct (extract_fields_throws_TypeError _ _ Hthrow) as [message ->].
  exists message. split; [done|].
  by rewrite (analyze_id_resolved _ _ _ _ Hlen Hget
                (sendRequestToTwitter_Throw _ _ Hthrow)).
Qed.

Lemma extraction_failure_answered_OK_witness :
  ∃ message,
    TypeError (cannot_read VNull "data") = TypeError message ∧
    analyze_id (λ _, Normal (Scenario.axios_response VNull)) Scenario.missing_id =
    {| upstream_calls := [buildURL Scenario.missing_id];
       sent := Some {| status := 200;
                       content := Json (VObj {[
                         "error" := VStr message;
                         "full_stack" := TypeError (cannot_read VNull "data") ]}) |} |}.
Proof.
  apply (extraction_failure_answered_OK
           (λ _, Normal (Scenario.axios_response VNull)) Scenario.missing_id
           (Scenario.axios_response VNull));
    reflexivity.
Defined.

(** ** What the result depends on *)

Section TwoEnvelopes.
Variables (envelope1 envelope2 : value).
Hypothesis defined1 : nullish envelope1 = false.
Hypothesis defined2 : nullish envelope2 = false.

Lemma extractors_read_data :
  own_property envelope1 "data" = own_property envelope2 "data" →
  truthy (own_property envelope1 "data") = true →
  extractText envelope1 = extractText envelope2 ∧
  extractId envelope1 = extractId envelope2.
Proof.
  intros Heq Htruthy. unfold extractText, extractId, tweetIdIsValid.
  read_properties. by rewrite <- !Heq, !Htruthy.
Qed.

Lemma extractors_read_errors :
  truthy (own_property envelope1 "data") = false →
  truthy (own_property envelope2 "data") = false →
  own_property envelope1 "errors" = own_property envelope2 "errors" →
  extractText envelope1 = extractText envelope2 ∧
  extractId envelope1 = extractId envelope2.
Proof.
  intros Hfalsy1 Hfalsy2 Heq. unfold extractText, extractId, tweetIdIsValid.
  read_properties. by rewrite !Hfalsy1, !Hfalsy2, <- !Heq.
Qed.
End TwoEnvelopes.

Lemma sendRequestToTwitter_ext response1 response2 envelope1 envelope2 :
  get response1 "data" = Normal envelope1 →
  get response2 "data" = Normal envelope2 →
  extractText envelope1 = extractText envelope2 ∧
  extractId envelope1 = extractId envelope2 →
  sendRequestToTwitter response1 = sendRequestToTwitter response2.
Proof.
  intros Hget1 Hget2 [Htext Hid]. unfold sendRequestToTwitter, extract_fields.
  rewrite Hget1, Hget2. cbn [mbind completion_bind]. by rewrite Htext, Hid.
Qed.

(** X9: when the [data] field is truthy the result depends on nothing
    else in the body: two bodies with the same truthy [data] give the same
    result, whatever their [errors] and other fields are. *)
Theorem truthy_data_decides
    (response1 response2 envelope1 envelope2 : value) :
  get response1 "data" = Normal envelope1 →
  get response2 "data" = Normal envelope2 →
  nullish envelope1 = false →
  nullish envelope2 = false →
  own_property envelope1 "data" = own_property envelope2 "data" →
  truthy (own_property envelope1 "data") = true →
  sendRequestToTwitter response1 = sendRequestToTwitter response2.
Proof.
  intros Hget1 Hget2 ? ? ? ?.
  apply (sendRequestToTwitter_ext _ _ _ _ Hget1 Hget2).
  by apply extractors_read_data.
Qed.

Lemma truthy_data_decides_witness :
  sendRequestToTwitter (Scenario.axios_response Scenario.found_envelope)
  = sendRequestToTwitter
      (Scenario.axios_response
         (VObj {[ "data" := VArr [Scenario.found_record];
                  "errors" := VArr [Scenario.not_found_record] ]})).
Proof.
  apply (truthy_data_decides _ _ Scenario.found_envelope
           (VObj {[ "data" := VArr [Scenario.found_record];
                    "errors" := VArr [Scenario.not_found_record] ]}));
    reflexivity.
Defined.

(** X10: a falsy [data] field ([null], [false], [0], the empty string) is
    treated like a missing one: two bodies whose [data] is falsy and whose
    [errors] are the same give the same result. *)
Theorem falsy_data_is_missing_data
    (response1 response2 envelope1 envelope2 : value) :
  get response1 "data" = Normal envelope1 →
  get response2 "data" = Normal envelope2 →
  nullish envelope1 = false →
  nullish envelope2 = false →
  truthy (own_property envelope1 "data") = false →
  truthy (own_property envelope2 "data") = false →
  own_property envelope1 "errors" = own_property envelope2 "errors" →
  sendRequestToTwitter response1 = sendRequestToTwitter response2.
Proof.
  intros Hget1 Hget2 ? ? ? ? ?.
  apply (sendRequestToTwitter_ext _ _ _ _ Hget1 Hget2).
  by apply extractors_read_errors.
Qed.

Lemma falsy_data_is_missing_data_witness :
  sendRequestToTwitter (Scenario.axios_response Scenario.not_found_envelope)
  = sendRequestToTwitter
      (Scenario.axios_response
         (VObj {[ "data" := VNull;
                  "errors" := VArr [Scenario.not_found_record] ]})).
Proof.
  apply (falsy_data_is_missing_data _ _ Scenario.not_found_envelope
           (VObj {[ "data" := VNull;
                    "errors" := VArr [Scenario.not_found_record] ]}));
    reflexivity.
Defined.

(** ** What [analyzeSentiment] returns *)

Lemma get_Normal_inv v k x :
  get v k = Normal x → nullish v = false ∧ x = own_property v k.
Proof. unfold get. destruct (nullish v); [done|]. by intros [= <-]. Qed.

Lemma template_literal_Normal_inv v u :
  template_literal v = Normal u → converts_to_string v = true.
Proof. unfold template_literal. by destruct (converts_to_string v). Qed.

(** The [try] block returns only along its success path. *)
Lemma request_sentiment_Normal_inv language doc v :
  request_sentiment language doc = Normal v →
  ∃ reply,
    LanguageServiceClient language = Normal () ∧
    client_analyzeSentiment language (sentiment_request doc) = Normal reply ∧
    destructure_first reply = Normal v ∧
    nullish (own_property v "documentSentiment") = false ∧
    converts_to_string doc = true ∧
    converts_to_string
      (own_property (own_property v "documentSentiment") "score") = true ∧
    converts_to_string
      (own_property (own_property v "documentSentiment") "magnitude") = true.
Proof.
  unfold request_sentiment.
  intros ([] & Hnew & (reply & Hcall & (result & Hfirst & Hrest)
            %bind_Normal_inv)%bind_Normal_inv)%bind_Normal_inv.
  apply bind_Normal_inv in Hrest
    as (sentiment & [Hresult ->]%get_Normal_inv & Hrest).
  apply bind_Normal_inv in Hrest as (? & Hdoc%template_literal_Normal_inv & Hrest).
  apply bind_Normal_inv in Hrest as (score & [Hsentiment ->]%get_Normal_inv & Hrest).
  apply bind_Normal_inv in Hrest as (? & Hscore%template_literal_Normal_inv & Hrest).
  apply bind_Normal_inv in Hrest as (magnitude & [_ ->]%get_Normal_inv & Hrest).
  apply bind_Normal_inv in Hrest
    as (? & Hmagnitude%template_literal_Normal_inv & Hrest).
  destruct (documentSentiment_object _ Hsentiment) as [fields ->].
  injection Hrest as <-. by exists reply.
Qed.

Lemma analyzeSentiment_inv language doc v :
  analyzeSentiment language doc = Normal v →
  v = VUndefined ∨ request_sentiment language doc = Normal v.
Proof.
  unfold analyzeSentiment.
  destruct (request_sentiment language doc) as [r|e]; intros [= <-]; auto.
Qed.

(** X11: [analyzeSentiment] returns something other than [undefined]
    exactly when the client is built, the call resolves, the first element
    of the reply has a [documentSentiment] that is not [null], and the
    three logged values convert to strings; it then returns that first
    element.  In every other case it returns [undefined]. *)
Theorem analyzeSentiment_result_iff
    (language : language_service) (doc result : value) :
  analyzeSentiment language doc = Normal result ∧ result ≠ VUndefined ↔
  ∃ reply,
    LanguageServiceClient language = Normal () ∧
    client_analyzeSentiment language (sentiment_request doc) = Normal reply ∧
    destructure_first reply = Normal result ∧
    nullish (own_property result "documentSentiment") = false ∧
    converts_to_string doc = true ∧
    converts_to_string
      (own_property (own_property result "documentSentiment") "score") = true ∧
    converts_to_string
      (own_property (own_property result "documentSentiment") "magnitude") = true.
Proof.
  split.
  - intros [[-> | Hreturn]%analyzeSentiment_inv Hdefined]; [done|].
    by apply request_sentiment_Normal_inv.
  - intros (reply & Hnew & Hcall & Hfirst & Hsentiment & Hdoc & Hscore & Hmagnitude).
    split.
    + by apply (analyzeSentiment_result _ _ reply).
    + by destruct (documentSentiment_object _ Hsentiment) as [fields ->].
Qed.

(** ** What POST /google/analyze writes *)

Lemma send_sentiment_cases language doc :
  send_sentiment language doc = Normal None ∧
  analyzeSentiment language doc = Normal VUndefined ∨
  ∃ fields sentiment,
    send_sentiment language doc
    = Normal (Some {| status := 200; content := Json (VObj fields) |}) ∧
    request_sentiment language doc = Normal (VObj fields) ∧
    fields !! "documentSentiment" = Some sentiment ∧
    nullish sentiment = false.
Proof.
  unfold send_sentiment.
  destruct (analyzeSentiment_returns language doc) as [v Hv]. rewrite Hv.
  destruct (analyzeSentiment_inv _ _ _ Hv) as [-> | Hreturn]; [by left|].
  destruct (request_sentiment_Normal_inv _ _ _ Hreturn)
    as (reply & _ & _ & _ & Hsentiment & _).
  destruct (documentSentiment_object _ Hsentiment) as [fields ->].
  right. simpl in Hsentiment.
  destruct (fields !! "documentSentiment") as [sentiment|] eqn:Hlookup; [|done].
  by exists fields, sentiment.
Qed.

(** X12: a response of the sentiment endpoint always has status 200 and a
    JSON body that is an object carrying a [documentSentiment] other than
    [null]: the endpoint never writes the 401 of its [catch] block, and
    never a text body. *)
Theorem google_analyze_response
    (language : language_service) (req_body : value) (r : http_response) :
  google_analyze language req_body = Some r →
  status r = 200 ∧
  ∃ fields sentiment,
    content r = Json (VObj fields) ∧
    fields !! "documentSentiment" = Some sentiment ∧
    nullish sentiment = false.
Proof.
  unfold google_analyze.
  destruct (destructure _ _ _) as [doc|]; [|done].
  destruct (send_sentiment_cases language doc)
    as [[-> _] | (fields & sentiment & -> & _ & Hlookup & Hdefined)]; [done|].
  intros [= <-]. split; [done|]. by exists fields, sentiment.
Qed.

Lemma google_analyze_response_witness :
  status {| status := 200; content := Json Scenario.sentiment_result |} = 200 ∧
  ∃ fields sentiment,
    content {| status := 200; content := Json Scenario.sentiment_result |}
    = Json (VObj fields) ∧
    fields !! "documentSentiment" = Some sentiment ∧
    nullish sentiment = false.
Proof.
  apply (google_analyze_response Scenario.answering Scenario.love_body).
  reflexivity.
Defined.

(** X13: the sentiment endpoint leaves a request unanswered exactly when
    the request has no body to destructure or [analyzeSentiment] returns
    [undefined]. *)
Theorem google_analyze_unanswered_iff
    (language : language_service) (req_body : value) :
  google_analyze language req_body = None ↔
  nullish req_body = true ∨
  analyzeSentiment language (own_property req_body "doc") = Normal VUndefined.
Proof.
  destruct (nullish req_body) eqn:Hbody.
  - rewrite (google_analyze_undefined _ _ Hbody). by split; [left|].
  - rewrite (google_analyze_defined _ _ Hbody).
    destruct (send_sentiment_cases language (own_property req_body "doc"))
      as [[-> Hundefined] | (fields & sentiment & -> & Hreturn & _)].
    + by split; [right|].
    + split; [done|]. intros [? | Hundefined]; [done|].
      unfold analyzeSentiment in Hundefined. by rewrite Hreturn in Hundefined.
Qed.

(** X14: when the call resolves with a reply that is not iterable, is
    empty, or whose first element has no [documentSentiment], the
    exception is swallowed like an upstream fault and nothing is sent. *)
Theorem reply_without_sentiment_unanswered
    (language : language_service) (req_body reply : value) :
  client_analyzeSentiment language
    (sentiment_request (own_property req_body "doc")) = Normal reply →
  (∀ result, destructure_first reply = Normal result →
             nullish (own_property result "documentSentiment") = true) →
  google_analyze language req_body = None.
Proof.
  intros Hcall Hnone.
  destruct (nullish req_body) eqn:Hbody; [by apply google_analyze_undefined|].
  rewrite (google_analyze_defined _ _ Hbody).
  destruct (send_sentiment_cases language (own_property req_body "doc"))
    as [[-> _] | (fields & sentiment & _ & Hreturn & _)]; [done|].
  destruct (request_sentiment_Normal_inv _ _ _ Hreturn)
    as (reply' & _ & Hcall' & Hfirst & Hsentiment & _).
  rewrite Hcall in Hcall'. injection Hcall' as <-.
  by rewrite (Hnone _ Hfirst) in Hsentiment.
Qed.

Lemma reply_without_sentiment_unanswered_witness :
  google_analyze (LanguageService (Normal ()) (λ _, Normal (VArr [])))
                 Scenario.love_body = None.
Proof.
  apply (reply_without_sentiment_unanswered _ _ (VArr [])); [reflexivity|].
  intros result [= <-]. reflexivity.
Defined.

(** X15: a [doc] that does not convert to a string (an object with a
    [toString] property of its own) is never answered, even when the
    sentiment service accepts it: logging the text throws inside the
    [try] block of [analyzeSentiment]. *)
Theorem unprintable_doc_unanswered
    (language : language_service) (req_body : value) :
  converts_to_string (own_property req_body "doc") = false →
  google_analyze language req_body = None.
Proof.
  intros Hdoc.
  destruct (nullish req_body) eqn:Hbody; [by apply google_analyze_undefined|].
  rewrite (google_analyze_defined _ _ Hbody).
  destruct (send_sentiment_cases language (own_property req_body "doc"))
    as [[-> _] | (fields & sentiment & _ & Hreturn & _)]; [done|].
  destruct (request_sentiment_Normal_inv _ _ _ Hreturn)
    as (reply & _ & _ & _ & _ & Hconverts & _).
  by rewrite Hdoc in Hconverts.
Qed.

Lemma unprintable_doc_unanswered_witness :
  google_analyze Scenario.answering
    (VObj {[ "doc" := VObj {[ "toString" := VNum 1%float ]} ]}) = None.
Proof. apply unprintable_doc_unanswered. reflexivity. Defined.
